(** * Liquidsoap [src/tools/unix_c.c]: the native time and locale shim

    A shallow embedding of the C stubs [liquidsoap_set_locale],
    [liquidsoap_get_timezone], [liquidsoap_get_timezone_by_name],
    [liquidsoap_mktime] and [liquidsoap_get_pagesize], together with the
    part of the OCaml runtime ([caml/mlvalues.h], [caml/alloc.h],
    [caml/unixsupport.h]) and of the C library ([setenv], [setlocale],
    [tzset], [mktime], [getpagesize]) they are written against.

    The stubs are straight-line code over process-wide state, so they are
    modelled as computations in a state-and-exception monad over a record
    [world] holding the environment, the locale, the timezone globals and
    a log of the library calls that were issued.  The macros [CAMLparam],
    [CAMLlocal] and [CAMLreturn] only register values with the garbage
    collector and leave no trace in the model. *)

From Stdlib Require Import ZArith Lia List Bool Ascii String.
From Stdlib Require Import Floats.SpecFloat.
From stdpp Require Import gmap strings.

Set Warnings "-register-all".

Local Open Scope string_scope.
Local Open Scope Z_scope.

(** ** C integer types *)

Module CInt.

(** Two's complement reduction of [z] to a signed integer of [bits] bits:
    what an integer conversion to a narrower signed type does on the
    platforms OCaml supports. *)
Definition wrap_signed (bits z : Z) : Z :=
  (z + 2 ^ (bits - 1)) mod 2 ^ bits - 2 ^ (bits - 1).

Definition int_min : Z := - 2 ^ 31.
Definition int_max : Z := 2 ^ 31 - 1.

(** [(int) z] *)
Definition to_int (z : Z) : Z := wrap_signed 32 z.

Definition in_int (z : Z) : Prop := int_min <= z <= int_max.

Definition in_intb (z : Z) : bool := (int_min <=? z) && (z <=? int_max).

(** [time_t] is a signed 64-bit integer. *)
Definition time_t_min : Z := - 2 ^ 63.
Definition time_t_max : Z := 2 ^ 63 - 1.

Definition in_time_t (z : Z) : Prop := time_t_min <= z <= time_t_max.

Definition in_time_tb (z : Z) : bool := (time_t_min <=? z) && (z <=? time_t_max).

End CInt.

(** ** The OCaml runtime, as seen from C *)

Module Caml.

(** An OCaml [value] is either an immediate integer or a heap block.
    Blocks holding a record or tuple, a string and a boxed float are
    kept apart; all of them are immutable once built. *)
Inductive value : Type :=
| Vlong (n : Z)
| Vblock (tag : Z) (fields : list value)
| Vstring (s : string)
| Vdouble (d : spec_float).

(** [#define Val_long(x) ((intnat) (((uintnat)(x) << 1)) + 1)]: the
    integer loses its top bit. *)
Definition Val_long (x : Z) : value := Vlong (CInt.wrap_signed 63 x).

(** [#define Long_val(x) ((x) >> 1)].  Applying it to a block is not
    meaningful; the model answers 0 there. *)
Definition Long_val (v : value) : Z :=
  match v with
  | Vlong n => n
  | _ => 0
  end.

(** [#define Val_int(x) Val_long(x)] *)
Definition Val_int (x : Z) : value := Val_long x.

(** [#define Int_val(x) ((int) Long_val(x))] *)
Definition Int_val (v : value) : Z := CInt.to_int (Long_val v).

(** [#define Bool_val(x) Int_val(x)] *)
Definition Bool_val (v : value) : Z := Int_val v.

Definition Val_unit : value := Val_int 0.
Definition Val_false : value := Val_int 0.
Definition Val_true : value := Val_int 1.

(** [Field(x, i)] is the [i]-th word of the block [x].  Reading past the end
    of a block, or from an immediate, is undefined in C; the model
    answers [Val_unit] there. *)
Definition Field (v : value) (i : nat) : value :=
  match v with
  | Vblock _ fields => nth i fields Val_unit
  | _ => Val_unit
  end.

(** [caml_alloc_tuple(n)]: a fresh block of tag 0 and [n] fields. *)
Definition caml_alloc_tuple (n : nat) : value := Vblock 0 (repeat Val_unit n).

(** [Store_field(block, i, x)] *)
Definition Store_field (block : value) (i : nat) (x : value) : value :=
  match block with
  | Vblock tag fields => Vblock tag (<[i := x]> fields)
  | _ => block
  end.

(** [caml_copy_string(s)]: a fresh OCaml string with the bytes of the C
    string [s]. *)
Definition caml_copy_string (s : string) : value := Vstring s.

(** [caml_copy_double(d)] *)
Definition caml_copy_double (d : spec_float) : value := Vdouble d.

(** The C comparison [v == w] of two [value] words, used here only
    against an immediate: a block is never equal to an immediate. *)
Definition word_eqb (v w : value) : bool :=
  match v, w with
  | Vlong a, Vlong b => a =? b
  | _, _ => false
  end.

(** Error codes of [Unix.error] that the stubs use. *)
Inductive unix_errno : Type := ERANGE.

(** The OCaml exception [Unix.Unix_error (code, function, argument)]. *)
Inductive exn : Type :=
| Unix_error (code : unix_errno) (cmdname : string) (cmdarg : string).

(** [(double) z] for a C integer [z]: rounding to the nearest binary64
    number, ties to even. *)
Definition double_of_Z (z : Z) : spec_float := binary_normalize 53 1024 z 0 false.

End Caml.

Export Caml.

(** ** The C library: calendar, timezone, environment and locale

    The functions the stubs call belong to the platform, not to
    Liquidsoap.  They are modelled after ISO C ([setlocale], [mktime]) and
    POSIX ([setenv], [tzset], [timezone], [tzname]); what varies from one
    host to another, its timezone rules and its installed locales, is a
    field of the state. *)

Module Libc.

(** [struct tm] of [<time.h>]. *)
Record tm : Type := mk_tm {
  tm_sec : Z;
  tm_min : Z;
  tm_hour : Z;
  tm_mday : Z;
  tm_mon : Z;
  tm_year : Z;
  tm_wday : Z;
  tm_yday : Z;
  tm_isdst : Z
}.

(** *** Calendar arithmetic

    [mktime] ignores [tm_wday] and [tm_yday] and accepts fields outside
    their usual ranges; the seconds elapsed since 1970-01-01 00:00:00 on
    the local clock are obtained by carrying months into years and by
    counting days, hours, minutes and seconds linearly.  (C libraries
    differ on a [tm_sec] outside 0..59 next to a change of clock: some
    add the excess after the zone has been resolved.  The properties
    below that compare two spellings of a date keep [tm_sec] the same on
    both sides.) *)

Definition is_leap (y : Z) : bool :=
  (y mod 4 =? 0) && (negb (y mod 100 =? 0) || (y mod 400 =? 0)).

(** Days from 1970-01-01 to the first of January of year [y]. *)
Definition days_before_year (y : Z) : Z :=
  365 * (y - 1970) + (y - 1969) / 4 - (y - 1901) / 100 + (y - 1601) / 400.

(** Days from the first of January to the first of month [m] (0 to 11). *)
Definition days_before_month (leap : bool) (m : Z) : Z :=
  nth (Z.to_nat m) [0; 31; 59; 90; 120; 151; 181; 212; 243; 273; 304; 334] 0
  + (if leap && (2 <=? m) then 1 else 0).

Definition local_seconds (t : tm) : Z :=
  let year := 1900 + tm_year t + tm_mon t / 12 in
  let mon := tm_mon t mod 12 in
  let days := days_before_year year + days_before_month (is_leap year) mon
              + (tm_mday t - 1) in
  days * 86400 + tm_hour t * 3600 + tm_min t * 60 + tm_sec t.

(** *** Timezones

    A zone gives the value of the [timezone] global (seconds west of UTC
    of standard time), the two abbreviations of [tzname], and the rule
    [z_resolve isdst s] that turns [s] seconds on the local clock, read
    with the DST request [isdst] of [tm_isdst], into an absolute time, or
    into [None] when the zone has no such local time. *)
Record zone : Type := mk_zone {
  z_west : Z;
  z_std_name : string;
  z_dst_name : string;
  z_resolve : Z -> Z -> option Z
}.

(** A zone without daylight saving time, [west] seconds west of UTC. *)
Definition fixed_zone (std dst : string) (west : Z) : zone :=
  {| z_west := west; z_std_name := std; z_dst_name := dst;
     z_resolve := fun _ s => Some (s + west) |}.

Definition utc_zone : zone := fixed_zone "UTC" "UTC" 0.

(** A zone whose clock is [dst_west] seconds west of UTC between the
    instants [from] and [till] and [west] seconds otherwise, on a
    platform that refuses a local time that does not exist under the
    requested interpretation. *)
Definition strict_dst_zone (std dst : string) (west dst_west from till : Z) : zone :=
  let in_dst u := (from <=? u) && (u <? till) in
  {| z_west := west; z_std_name := std; z_dst_name := dst;
     z_resolve := fun isdst s =>
       let as_std := s + west in
       let as_dst := s + dst_west in
       if isdst =? 0 then
         if in_dst as_std then None else Some as_std
       else if 0 <? isdst then
         if in_dst as_dst then Some as_dst else None
       else if negb (in_dst as_std) then Some as_std
       else if in_dst as_dst then Some as_dst
       else None |}.

(** The calendar time of [t] in zone [z], when there is one that
    [time_t] can hold. *)
Definition calendar_time (z : zone) (t : tm) : option Z :=
  match z_resolve z (tm_isdst t) (local_seconds t) with
  | Some u => if CInt.in_time_tb u then Some u else None
  | None => None
  end.

(** *** Process-wide state *)

Inductive lc_category : Type :=
| LC_COLLATE | LC_CTYPE | LC_MONETARY | LC_NUMERIC | LC_TIME | LC_MESSAGES.

(** First argument of [setlocale]: one category, or [LC_ALL]. *)
Inductive lc_selector : Type :=
| LC_ALL
| LC_only (c : lc_category).

(** The library calls a stub can issue, with their arguments. *)
Inductive libc_call : Type :=
| Call_setenv (name val : string) (overwrite : Z)
| Call_putenv (assignment : string)
| Call_setlocale (category : lc_selector) (locale : string)
| Call_tzset
| Call_mktime (t : tm).

Record world : Type := mk_world {
  environ : gmap string string;         (* the process environment *)
  installed_locales : list string;      (* locales [setlocale] accepts *)
  locale : lc_category -> string;       (* the locale in effect *)
  sys_zone : zone;                      (* the system's timezone setting *)
  timezone : Z;                         (* [extern long timezone] *)
  tzname : string * string;             (* [extern char *tzname[2]] *)
  calls : list libc_call                (* calls issued so far, oldest first *)
}.

Definition log (c : libc_call) (w : world) : world :=
  mk_world (environ w) (installed_locales w) (locale w) (sys_zone w)
           (timezone w) (tzname w) (calls w ++ [c]).

Definition set_environ (e : gmap string string) (w : world) : world :=
  mk_world e (installed_locales w) (locale w) (sys_zone w)
           (timezone w) (tzname w) (calls w).

Definition set_locale_state (l : lc_category -> string) (w : world) : world :=
  mk_world (environ w) (installed_locales w) l (sys_zone w)
           (timezone w) (tzname w) (calls w).

(** Copies the system's timezone setting into the C globals. *)
Definition load_zone (w : world) : world :=
  mk_world (environ w) (installed_locales w) (locale w) (sys_zone w)
           (z_west (sys_zone w))
           (z_std_name (sys_zone w), z_dst_name (sys_zone w))
           (calls w).

(** *** Computations: state passing with OCaml exceptions *)

Inductive outcome (A : Type) : Type :=
| Returns (a : A)
| Raises (e : exn).

Arguments Returns {A} a.
Arguments Raises {A} e.

Definition M (A : Type) : Type := world -> outcome A * world.

Definition ret {A} (a : A) : M A := fun w => (Returns a, w).

Definition bind {A B} (c : M A) (k : A -> M B) : M B :=
  fun w =>
    match c w with
    | (Returns a, w') => k a w'
    | (Raises e, w') => (Raises e, w')
    end.

Definition raise {A} (e : exn) : M A := fun w => (Raises e, w).

Definition get_world : M world := fun w => (Returns w, w).

(** *** The library functions *)

(** Splits ["NAME=value"] at its first [=]. *)
Fixpoint split_assignment (s : string) : option (string * string) :=
  match s with
  | EmptyString => None
  | String c rest =>
      if Ascii.eqb c "="%char then Some (EmptyString, rest)
      else match split_assignment rest with
           | Some (name, val) => Some (String c name, val)
           | None => None
           end
  end.

(** [setenv(name, val, overwrite)]: binds [name] to [val], unless it is
    already bound and [overwrite] is zero.  Answers 0. *)
Definition setenv (name val : string) (overwrite : Z) : M Z :=
  fun w =>
    let w1 := log (Call_setenv name val overwrite) w in
    match environ w !! name with
    | Some _ =>
        if overwrite =? 0 then (Returns 0, w1)
        else (Returns 0, set_environ (<[name := val]> (environ w)) w1)
    | None => (Returns 0, set_environ (<[name := val]> (environ w)) w1)
    end.

(** [putenv("NAME=value")]: binds [NAME] to [value]; a string without
    [=] removes the variable.  Answers 0. *)
Definition putenv (assignment : string) : M Z :=
  fun w =>
    let w1 := log (Call_putenv assignment) w in
    match split_assignment assignment with
    | Some (name, val) => (Returns 0, set_environ (<[name := val]> (environ w)) w1)
    | None => (Returns 0, set_environ (delete assignment (environ w)) w1)
    end.

Definition selects (sel : lc_selector) (c : lc_category) : bool :=
  match sel with
  | LC_ALL => true
  | LC_only c' =>
      match c', c with
      | LC_COLLATE, LC_COLLATE | LC_CTYPE, LC_CTYPE | LC_MONETARY, LC_MONETARY
      | LC_NUMERIC, LC_NUMERIC | LC_TIME, LC_TIME | LC_MESSAGES, LC_MESSAGES => true
      | _, _ => false
      end
  end.

Definition has_locale (w : world) (name : string) : bool :=
  existsb (String.eqb name) (installed_locales w).

(** [setlocale(category, name)]: when the platform has the locale
    [name], puts the selected categories under it and answers the name;
    otherwise changes nothing and answers [NULL]. *)
Definition setlocale (sel : lc_selector) (name : string) : M (option string) :=
  fun w =>
    let w1 := log (Call_setlocale sel name) w in
    if has_locale w name then
      (Returns (Some name),
       set_locale_state (fun c => if selects sel c then name else locale w c) w1)
    else (Returns None, w1).

(** [tzset()]: refreshes [timezone] and [tzname] from the system's
    timezone setting. *)
Definition tzset : M unit :=
  fun w => (Returns tt, log Call_tzset (load_zone w)).

(** [mktime(&tm)]: the calendar time of [*tm] under the current zone,
    or [(time_t) -1] when it cannot be represented.  As POSIX requires,
    the timezone globals are refreshed as if by [tzset].  The
    normalised fields it writes back into [*tm] are not modelled: no
    caller here reads them. *)
Definition mktime_value (z : zone) (t : tm) : Z :=
  match calendar_time z t with
  | Some u => u
  | None => -1
  end.

Definition mktime (t : tm) : M Z :=
  fun w => (Returns (mktime_value (sys_zone w) t), log (Call_mktime t) (load_zone w)).

(** [unix_error(code, cmdname, cmdarg)] of [caml/unixsupport.h]: raises
    [Unix.Unix_error]; the argument [Nothing] stands for the empty
    string. *)
Definition Nothing : option string := None.

Definition unix_error {A} (code : unix_errno) (cmdname : string)
           (cmdarg : option string) : M A :=
  raise (Unix_error code cmdname
                    (match cmdarg with
                     | Some arg => arg
                     | None => EmptyString
                     end)).

End Libc.

Export Libc.

Declare Scope stub_scope.
Delimit Scope stub_scope with stub.
Notation "x <- c1 ;; c2" := (bind c1 (fun x => c2))
  (at level 100, c1 at next level, right associativity) : stub_scope.
Notation "c1 ;; c2" := (bind c1 (fun _ => c2))
  (at level 100, right associativity) : stub_scope.

Local Open Scope stub_scope.

(** ** The stubs of [unix_c.c] *)

Section Stubs.

(** Whether the file is compiled with [WIN32] defined. *)
Variable WIN32 : bool.

Definition liquidsoap_set_locale (unit : value) : M value :=
  (if WIN32 then
     putenv "LANG=C" ;;
     putenv "LC_ALL=C"
   else
     setenv "LANG" "C" 1 ;;
     setenv "LC_ALL" "C" 1) ;;
  setlocale LC_ALL "C" ;;
  ret Val_unit.

Definition liquidsoap_get_timezone : M value :=
  tzset ;;
  w <- get_world ;;
  ret (Val_long (timezone w)).

Definition liquidsoap_get_timezone_by_name : M value :=
  tzset ;;
  let ret0 := caml_alloc_tuple 2 in
  w <- get_world ;;
  let ret1 := Store_field ret0 0 (caml_copy_string (fst (tzname w))) in
  let ret2 := Store_field ret1 1 (caml_copy_string (snd (tzname w))) in
  ret ret2.

Definition liquidsoap_mktime (_tm : value) : M value :=
  let tm :=
    {| tm_sec := Int_val (Field _tm 0);
       tm_min := Int_val (Field _tm 1);
       tm_hour := Int_val (Field _tm 2);
       tm_mday := Int_val (Field _tm 3);
       tm_mon := Int_val (Field _tm 4);
       tm_year := Int_val (Field _tm 5);
       tm_wday := 0;
       tm_yday := 0;
       tm_isdst := if word_eqb (Field _tm 6) (Val_int 0) then -1
                   else Bool_val (Field (Field _tm 6) 0) |} in
  time <- mktime tm ;;
  (if time =? -1 then unix_error ERANGE "mktime" Nothing else ret tt) ;;
  ret (caml_copy_double (double_of_Z time)).

End Stubs.

(** ** The caller's view: [LocalTimeSpec] and the four operations *)

Module HostEnvironment.

Inductive DstFlag : Type := Unspecified | StandardTime | DaylightTime.

Record LocalTimeSpec : Type := mk_spec {
  seconds : Z;
  minutes : Z;
  hours : Z;
  day_of_month : Z;
  month : Z;
  year : Z;          (* years since 1900 *)
  dst : DstFlag
}.

(** The fields of a [LocalTimeSpec] are those of a [struct tm]: each one
    is a C [int]. *)
Definition well_formed (s : LocalTimeSpec) : Prop :=
  CInt.in_int (seconds s) /\ CInt.in_int (minutes s) /\ CInt.in_int (hours s) /\
  CInt.in_int (day_of_month s) /\ CInt.in_int (month s) /\ CInt.in_int (year s).

(** The OCaml representation the stub receives: a record of six
    integers followed by a [bool option], [None] for [Unspecified],
    [Some false] for [StandardTime] and [Some true] for
    [DaylightTime]. *)
Definition value_of_dst (f : DstFlag) : value :=
  match f with
  | Unspecified => Val_int 0
  | StandardTime => Vblock 0 [Val_false]
  | DaylightTime => Vblock 0 [Val_true]
  end.

Definition value_of_spec (s : LocalTimeSpec) : value :=
  Vblock 0 [Val_int (seconds s); Val_int (minutes s); Val_int (hours s);
            Val_int (day_of_month s); Val_int (month s); Val_int (year s);
            value_of_dst (dst s)].

(** What the platform's [tm_isdst] should be for each flag. *)
Definition isdst_of (f : DstFlag) : Z :=
  match f with
  | Unspecified => -1
  | StandardTime => 0
  | DaylightTime => 1
  end.

(** The [struct tm] that carries the fields of [s] unchanged. *)
Definition tm_of_spec (s : LocalTimeSpec) : tm :=
  {| tm_sec := seconds s; tm_min := minutes s; tm_hour := hours s;
     tm_mday := day_of_month s; tm_mon := month s; tm_year := year s;
     tm_wday := 0; tm_yday := 0; tm_isdst := isdst_of (dst s) |}.

Definition force_unambiguous_locale (WIN32 : bool) : M value :=
  liquidsoap_set_locale WIN32 Val_unit.

Definition get_timezone_offset_seconds : M value := liquidsoap_get_timezone.

Definition get_timezone_names : M value := liquidsoap_get_timezone_by_name.

Definition to_epoch_seconds (s : LocalTimeSpec) : M value :=
  liquidsoap_mktime (value_of_spec s).



End HostEnvironment.

Export HostEnvironment.

(** ** Sample hosts *)

Definition host (z : zone) : world :=
  {| environ := {[ "LANG" := "fr_FR.UTF-8" ]};
     installed_locales := ["C"; "POSIX"; "fr_FR.UTF-8"];
     locale := fun _ => "fr_FR.UTF-8";
     sys_zone := z;
     timezone := 0;
     tzname := ("", "");
     calls := [] |}.

Definition utc_host : world := host utc_zone.

(** A host two hours east of UTC all year round. *)
Definition utc_plus_2_host : world := host (fixed_zone "EET" "" (-7200)).

(** Central European time in 2024: one hour east of UTC, two hours east
    between 2024-03-31 01:00 UTC and 2024-10-27 01:00 UTC. *)
Definition paris_2024_host : world :=
  host (strict_dst_zone "CET" "CEST" (-3600) (-7200) 1711846800 1729990800).

(** A host whose C library has lost its locale data. *)
Definition no_locale_host : world :=
  {| environ := ∅; installed_locales := []; locale := fun _ => "fr_FR.UTF-8";
     sys_zone := utc_zone; timezone := 0; tzname := ("", ""); calls := [] |}.

(** UTC the way the GNU C library serves it: a request for daylight
    time, which UTC never has, is answered as if that time were one hour
    ahead of standard time. *)
Definition gnu_utc_zone : zone :=
  {| z_west := 0; z_std_name := "UTC"; z_dst_name := "UTC";
     z_resolve := fun isdst s => if 0 <? isdst then Some (s - 3600) else Some s |}.

Definition gnu_utc_host : world := host gnu_utc_zone.

(** A host is configured as UTC when its local clock, read as standard
    time, is UTC. *)
Definition utc_configured (w : world) : Prop :=
  forall s, z_resolve (sys_zone w) 0 s = Some s.

(** *** Calendar dates, for stating normalisation *)




Definition new_years_eve : LocalTimeSpec := mk_spec 0 0 12 31 11 124 Unspecified.

(** *** Reading a float back as an integer *)

(** The integer a binary64 number denotes, when it denotes one: zeros,
    and finite numbers [m * 2 ^ e] whose exponent is not negative or
    whose mantissa is a multiple of [2 ^ (- e)].  Infinities, NaN and
    numbers with a fractional part have none. *)
Definition integer_of_double (f : spec_float) : option Z :=
  match f with
  | S754_zero _ => Some 0
  | S754_finite s m e =>
      if 0 <=? e then Some (cond_Zopp s (Z.pos m * 2 ^ e))
      else if Z.pos m mod 2 ^ (- e) =? 0 then Some (cond_Zopp s (Z.pos m / 2 ^ (- e)))
      else None
  | S754_infinity _ => None
  | S754_nan => None
  end.

(** Replaces the system's timezone setting, as an administrator would. *)
Definition set_zone (z : zone) (w : world) : world :=
  mk_world (environ w) (installed_locales w) (locale w) z
           (timezone w) (tzname w) (calls w).

(** Inputs used below. *)

(** 1970-01-01 00:00:00, standard time. *)
Definition epoch_spec : LocalTimeSpec := mk_spec 0 0 0 1 0 70 StandardTime.

(** 1969-12-31 23:59:59, standard time: one second before the epoch. *)
Definition epoch_minus_one : LocalTimeSpec := mk_spec 59 59 23 31 11 69 StandardTime.

(** The same instant, written as second -1 of 1970-01-01. *)
Definition epoch_minus_one' : LocalTimeSpec := mk_spec (-1) 0 0 1 0 70 StandardTime.

(** 2024-03-31 02:30:00, standard time requested: skipped by the clocks
    of Central Europe. *)
Definition spring_gap : LocalTimeSpec := mk_spec 0 30 2 31 2 124 StandardTime.

(** 2024-07-14 12:00:00, no DST request. *)
Definition summer_noon : LocalTimeSpec := mk_spec 0 0 12 14 6 124 Unspecified.

(** ** The page size stub *)

(** What the operating system reports about its memory pages. *)
Record machine : Type := mk_machine {
  page_bytes : Z
}.

(** The part of the Windows [SYSTEM_INFO] structure the stub reads; the
    field is a [DWORD], an unsigned 32-bit integer. *)
Record SYSTEM_INFO : Type := mk_SYSTEM_INFO {
  dwPageSize : Z
}.

(** [GetSystemInfo(&systemInfo)] *)
Definition GetSystemInfo (m : machine) : SYSTEM_INFO :=
  {| dwPageSize := page_bytes m mod 2 ^ 32 |}.

(** [getpagesize()], which answers an [int]. *)
Definition getpagesize (m : machine) : Z := CInt.to_int (page_bytes m).

Section PageSize.

(** Whether the file is compiled with [WIN32] defined. *)
Variable WIN32 : bool.

Definition liquidsoap_get_pagesize (m : machine) : value :=
  if WIN32 then
    let systemInfo := GetSystemInfo m in
    Val_int (dwPageSize systemInfo)
  else
    Val_int (getpagesize m).

End PageSize.

(** ** Vocabulary for the further properties *)

(** Two states of the process that differ at most by the log of calls. *)
Definition same_state (w1 w2 : world) : Prop :=
  environ w1 = environ w2 /\
  installed_locales w1 = installed_locales w2 /\
  (forall c, locale w1 c = locale w2 c) /\
  sys_zone w1 = sys_zone w2 /\
  timezone w1 = timezone w2 /\
  tzname w1 = tzname w2.

(** [s] with every calendar field reduced to a C [int]. *)
Definition truncate_spec (s : LocalTimeSpec) : LocalTimeSpec :=
  mk_spec (CInt.to_int (seconds s)) (CInt.to_int (minutes s)) (CInt.to_int (hours s))
          (CInt.to_int (day_of_month s)) (CInt.to_int (month s)) (CInt.to_int (year s))
          (dst s).



(** 2024-02-29 with an hour field of 2^32 + 25, which an OCaml integer
    of 63 bits holds and a C [int] does not. *)
Definition wide_hour : LocalTimeSpec := mk_spec 0 30 (2 ^ 32 + 25) 29 1 124 Unspecified.


(** Runs [c1] then [c2] and returns both results. *)
Definition both {A B} (c1 : M A) (c2 : M B) : M (A * B) :=
  bind c1 (fun a => bind c2 (fun b => ret (a, b))).


(** A machine with pages of 4096 bytes. *)
Definition machine_4k : machine := {| page_bytes := 4096 |}.



(** * Properties *)

(** ** Machine integers and runtime values *)

Lemma wrap_signed_small bits z :
  0 < bits -> - 2 ^ (bits - 1) <= z < 2 ^ (bits - 1) -> CInt.wrap_signed bits z = z.
Proof.
  intros Hb Hz. unfold CInt.wrap_signed.
  assert (E : 2 ^ bits = 2 * 2 ^ (bits - 1)).
  { replace bits with (Z.succ (bits - 1)) at 1 by lia. apply Z.pow_succ_r. lia. }
  rewrite Z.mod_small; lia.
Qed.

Lemma to_int_small z : CInt.in_int z -> CInt.to_int z = z.
Proof.
  unfold CInt.in_int, CInt.int_min, CInt.int_max, CInt.to_int. intros H.
  apply wrap_signed_small; [lia|]. change (32 - 1) with 31. lia.
Qed.

Lemma Int_val_Val_int z : CInt.in_int z -> Int_val (Val_int z) = z.
Proof.
  intros H. unfold Int_val, Val_int, Val_long, Long_val.
  rewrite (wrap_signed_small 63).
  - now apply to_int_small.
  - lia.
  - unfold CInt.in_int, CInt.int_min, CInt.int_max in H. change (63 - 1) with 62. lia.
Qed.

Lemma to_int_range x : CInt.in_int (CInt.to_int x).
Proof.
  unfold CInt.in_int, CInt.to_int, CInt.wrap_signed, CInt.int_min, CInt.int_max.
  change (32 - 1) with 31.
  pose proof (Z.mod_pos_bound (x + 2 ^ 31) (2 ^ 32) eq_refl) as H.
  change (2 ^ 32) with (2 * 2 ^ 31) in *. lia.
Qed.

(** Unboxing an OCaml integer as an [int] keeps its low 32 bits, whatever
    its size. *)
Lemma Int_val_Val_int_any x : Int_val (Val_int x) = CInt.to_int x.
Proof.
  unfold Int_val, Val_int, Val_long, Long_val, CInt.to_int, CInt.wrap_signed.
  change (63 - 1) with 62. change (32 - 1) with 31.
  change (2 ^ 63) with 9223372036854775808. change (2 ^ 62) with 4611686018427387904.
  change (2 ^ 32) with 4294967296. change (2 ^ 31) with 2147483648.
  Z.div_mod_to_equations. lia.
Qed.

Lemma to_int_idempotent x : CInt.to_int (CInt.to_int x) = CInt.to_int x.
Proof. apply to_int_small, to_int_range. Qed.

(** Outside the range of [int] the conversion is not the identity: an
    OCaml integer of more than 32 bits is cut down by [Int_val]. *)
Lemma Int_val_truncates : Int_val (Val_int (2 ^ 32 + 25)) = 25.
Proof. reflexivity. Qed.

Lemma isdst_of_value f :
  (if word_eqb (value_of_dst f) (Val_int 0) then -1
   else Bool_val (Field (value_of_dst f) 0)) = isdst_of f.
Proof. destruct f; reflexivity. Qed.

(** ** What [liquidsoap_mktime] computes *)

(** The stub, on the representation of a well-formed [LocalTimeSpec]: one
    call to [mktime] on the [struct tm] holding the same fields, then
    either the exception or the boxed float. *)
Lemma to_epoch_seconds_unfold s w :
  well_formed s ->
  to_epoch_seconds s w =
  let t := mktime_value (sys_zone w) (tm_of_spec s) in
  let w' := log (Call_mktime (tm_of_spec s)) (load_zone w) in
  if t =? -1 then (Raises (Unix_error ERANGE "mktime" ""), w')
  else (Returns (Vdouble (double_of_Z t)), w').
Proof.
  intros (Hs & Hmi & Hh & Hd & Hmo & Hy).
  unfold to_epoch_seconds, liquidsoap_mktime, value_of_spec, tm_of_spec.
  cbn [Field nth].
  rewrite !Int_val_Val_int by assumption.
  rewrite isdst_of_value.
  unfold bind, mktime. cbv zeta.
  destruct (_ =? -1); reflexivity.
Qed.

Ltac solve_well_formed :=
  unfold well_formed, CInt.in_int; repeat split; vm_compute; congruence.

(** The stubs at work on the sample hosts. *)

Example mktime_in_summer :
  fst (to_epoch_seconds summer_noon paris_2024_host) =
  Returns (Vdouble (double_of_Z 1720951200)).
Proof. reflexivity. Qed.

Example mktime_in_spring_gap :
  fst (to_epoch_seconds spring_gap paris_2024_host) =
  Raises (Unix_error ERANGE "mktime" "").
Proof. reflexivity. Qed.

Example mktime_year_2000 :
  fst (to_epoch_seconds (mk_spec 0 0 0 1 2 100 Unspecified) utc_host) =
  Returns (Vdouble (double_of_Z 951868800)).
Proof. reflexivity. Qed.

Example mktime_negative_month :
  fst (to_epoch_seconds (mk_spec 0 0 0 32 (-1) 100 Unspecified) utc_host) =
  fst (to_epoch_seconds (mk_spec 0 0 0 1 0 100 Unspecified) utc_host).
Proof. reflexivity. Qed.

Example timezone_two_hours_east :
  fst (get_timezone_offset_seconds utc_plus_2_host) = Returns (Vlong (-7200)).
Proof. reflexivity. Qed.

Example timezone_names_in_paris :
  fst (get_timezone_names paris_2024_host) =
  Returns (Vblock 0 [Vstring "CET"; Vstring "CEST"]).
Proof. reflexivity. Qed.

Example locale_calls_on_unix :
  calls (snd (force_unambiguous_locale false utc_host)) =
  [Call_setenv "LANG" "C" 1; Call_setenv "LC_ALL" "C" 1; Call_setlocale LC_ALL "C"].
Proof. reflexivity. Qed.

(** C3, as stated, fails for a field wider than a C [int]: the hour
    2^32 + 25 is stored whole in the OCaml record the stub receives, and
    [Int_val] hands [tm_hour] = 25 to [mktime], not the hour of the
    input. *)
Lemma wide_hour_is_cut_down_before_mktime :
  Long_val (Field (value_of_spec wide_hour) 2) = hours wide_hour /\
  hours wide_hour = 2 ^ 32 + 25 /\
  calls (snd (to_epoch_seconds wide_hour utc_host)) =
    [Call_mktime (mk_tm 0 30 25 29 1 124 0 0 (-1))] /\
  calls (snd (to_epoch_seconds wide_hour utc_host)) <>
    (calls utc_host ++
     [Call_mktime
        {| tm_sec := seconds wide_hour; tm_min := minutes wide_hour;
           tm_hour := hours wide_hour; tm_mday := day_of_month wide_hour;
           tm_mon := month wide_hour; tm_year := year wide_hour;
           tm_wday := 0; tm_yday := 0; tm_isdst := -1 |}])%list.
Proof.
  split; [reflexivity|]. split; [reflexivity|]. split; [reflexivity|].
  intros H. apply (f_equal (fun l => match l with
                                     | [Call_mktime t] => tm_hour t
                                     | _ => 0
                                     end)) in H.
  vm_compute in H. discriminate H.
Qed.

(** C3, amended: before the conversion the DST flag becomes [tm_isdst] =
    -1 for [Unspecified], 0 for [StandardTime] and 1 for [DaylightTime],
    and each of the six calendar fields reaches the platform's [mktime]
    as the C [int] that [Int_val] makes of it: unchanged when it fits a C
    [int], reduced modulo 2^32 otherwise.  The one library call the stub
    issues is [mktime] on exactly that [struct tm]. *)
Theorem mktime_receives_fields_as_c_ints s w :
  calls (snd (to_epoch_seconds s w)) =
  (calls w ++
   [Call_mktime
      {| tm_sec := CInt.to_int (seconds s); tm_min := CInt.to_int (minutes s);
         tm_hour := CInt.to_int (hours s); tm_mday := CInt.to_int (day_of_month s);
         tm_mon := CInt.to_int (month s); tm_year := CInt.to_int (year s);
         tm_wday := 0; tm_yday := 0;
         tm_isdst := match dst s with
                     | Unspecified => -1
                     | StandardTime => 0
                     | DaylightTime => 1
                     end |}])%list /\
  (well_formed s ->
   calls (snd (to_epoch_seconds s w)) =
   (calls w ++
    [Call_mktime
       {| tm_sec := seconds s; tm_min := minutes s; tm_hour := hours s;
          tm_mday := day_of_month s; tm_mon := month s; tm_year := year s;
          tm_wday := 0; tm_yday := 0;
          tm_isdst := match dst s with
                      | Unspecified => -1
                      | StandardTime => 0
                      | DaylightTime => 1
                      end |}])%list).
Proof.
  assert (G : calls (snd (to_epoch_seconds s w)) =
              (calls w ++
               [Call_mktime
                  (mk_tm (CInt.to_int (seconds s)) (CInt.to_int (minutes s))
                         (CInt.to_int (hours s)) (CInt.to_int (day_of_month s))
                         (CInt.to_int (month s)) (CInt.to_int (year s))
                         0 0 (isdst_of (dst s)))])%list).
  { unfold to_epoch_seconds, liquidsoap_mktime, value_of_spec.
    cbn [Field nth]. rewrite !Int_val_Val_int_any, isdst_of_value.
    unfold bind, mktime. cbv zeta. destruct (_ =? -1); reflexivity. }
  split; [exact G|].
  intros (Hs & Hmi & Hh & Hd & Hmo & Hy). rewrite G.
  rewrite !to_int_small by assumption. reflexivity.
Qed.

Lemma mktime_receives_fields_as_c_ints_witness :
  calls (snd (to_epoch_seconds summer_noon paris_2024_host)) =
  [Call_mktime (mk_tm 0 0 12 14 6 124 0 0 (-1))].
Proof.
  apply (proj2 (mktime_receives_fields_as_c_ints summer_noon paris_2024_host)).
  solve_well_formed.
Defined.




(** C2, as stated, fails: on a UTC host the two inputs 1969-12-31
    23:59:59 and 1970-01-01 00:00:-1 differ and are rejected with the very
    same exception, whose only payload is the error code, ["mktime"] and
    the empty string; so no function reads the input fields back from the
    exception. *)
Lemma range_error_does_not_carry_the_input :
  epoch_minus_one <> epoch_minus_one' /\
  fst (to_epoch_seconds epoch_minus_one utc_host) =
    Raises (Unix_error ERANGE "mktime" "") /\
  fst (to_epoch_seconds epoch_minus_one' utc_host) =
    Raises (Unix_error ERANGE "mktime" "") /\
  ~ exists fields_of : exn -> LocalTimeSpec,
      forall s w e,
        well_formed s ->
        fst (to_epoch_seconds s w) = Raises e ->
        fields_of e = s.
Proof.
  split; [discriminate|]. split; [reflexivity|]. split; [reflexivity|].
  intros [fields_of H].
  assert (H1 : fields_of (Unix_error ERANGE "mktime" "") = epoch_minus_one).
  { apply (H epoch_minus_one utc_host); [solve_well_formed|reflexivity]. }
  assert (H2 : fields_of (Unix_error ERANGE "mktime" "") = epoch_minus_one').
  { apply (H epoch_minus_one' utc_host); [solve_well_formed|reflexivity]. }
  rewrite H1 in H2. discriminate H2.
Qed.

(** C2, amended: whatever the input, the exception raised is
    [Unix_error (ERANGE, "mktime", "")]: the error code, the name of the
    C function and an empty argument, and none of the input fields. *)
Theorem range_error_payload s w e :
  fst (to_epoch_seconds s w) = Raises e ->
  e = Unix_error ERANGE "mktime" "".
Proof.
  unfold to_epoch_seconds, liquidsoap_mktime, bind, mktime. cbv zeta.
  destruct (_ =? -1); cbn; intros H; now inversion H.
Qed.

Lemma range_error_payload_witness :
  exists e,
    fst (to_epoch_seconds spring_gap paris_2024_host) = Raises e /\
    e = Unix_error ERANGE "mktime" "".
Proof.
  eexists. split; [reflexivity|].
  apply (range_error_payload spring_gap paris_2024_host). reflexivity.
Defined.

(** ** Timezone offset and names *)

(** C4: the stub first refreshes the timezone globals with [tzset] and
    then returns [timezone], the offset of standard time in seconds west
    of UTC, whatever the globals held before; it always returns.  On a
    host whose clock is two hours ahead of UTC all year round the result
    is -7200, and in a zone with daylight saving time it is the offset of
    standard time. *)
Theorem timezone_offset_is_west_positive w :
  get_timezone_offset_seconds w =
    (Returns (Val_long (timezone (snd (tzset w)))), snd (tzset w)) /\
  timezone (snd (tzset w)) = z_west (sys_zone w) /\
  calls (snd (get_timezone_offset_seconds w)) = (calls w ++ [Call_tzset])%list /\
  (forall std dst,
      let utc_plus_2 := fixed_zone std dst (-7200) in
      (forall isdst s, z_resolve utc_plus_2 isdst (s + 7200) = Some s) /\
      fst (get_timezone_offset_seconds (set_zone utc_plus_2 w)) = Returns (Vlong (-7200))) /\
  (forall std dst dst_west from till,
      fst (get_timezone_offset_seconds
             (set_zone (strict_dst_zone std dst (-3600) dst_west from till) w)) =
      Returns (Vlong (-3600))).
Proof.
  split; [reflexivity|]. split; [reflexivity|]. split; [reflexivity|].
  split.
  - intros std dst utc_plus_2. split; [|reflexivity].
    intros isdst s. cbn. f_equal. lia.
  - reflexivity.
Qed.

(** C8: the stub first refreshes the timezone globals with [tzset] and
    then returns a fresh pair holding a copy of [tzname[0]] and a copy of
    [tzname[1]], in that order; it always returns.  The copies hold the
    names as they were at the call: a later change of the system's zone
    and a second call leave the first pair as it was.  Either name may be
    empty. *)
Theorem timezone_names_are_copied w :
  get_timezone_names w =
    (Returns (Vblock 0 [Vstring (fst (tzname (snd (tzset w))));
                        Vstring (snd (tzname (snd (tzset w))))]),
     snd (tzset w)) /\
  tzname (snd (tzset w)) = (z_std_name (sys_zone w), z_dst_name (sys_zone w)) /\
  calls (snd (get_timezone_names w)) = (calls w ++ [Call_tzset])%list /\
  (forall z',
      let first := get_timezone_names w in
      let second := get_timezone_names (set_zone z' (snd first)) in
      fst first = Returns (Vblock 0 [Vstring (z_std_name (sys_zone w));
                                     Vstring (z_dst_name (sys_zone w))]) /\
      fst second = Returns (Vblock 0 [Vstring (z_std_name z'); Vstring (z_dst_name z')])) /\
  (forall west,
      fst (get_timezone_names (set_zone (fixed_zone "" "" west) w)) =
      Returns (Vblock 0 [Vstring ""; Vstring ""])).
Proof.
  repeat split; reflexivity.
Qed.

(** ** Locale *)

Lemma setenv_overwrite name val w :
  setenv name val 1 w =
  (Returns 0, set_environ (<[name := val]> (environ w)) (log (Call_setenv name val 1) w)).
Proof. unfold setenv. destruct (environ w !! name); reflexivity. Qed.

Lemma putenv_assignment name val w :
  split_assignment (name ++ "=" ++ val) = Some (name, val) ->
  putenv (name ++ "=" ++ val) w =
  (Returns 0,
   set_environ (<[name := val]> (environ w)) (log (Call_putenv (name ++ "=" ++ val)) w)).
Proof. intros H. unfold putenv. now rewrite H. Qed.

(** The state in which [liquidsoap_set_locale] leaves the process. *)
Lemma set_locale_run WIN32 unit w :
  liquidsoap_set_locale WIN32 unit w =
  (Returns Val_unit,
   mk_world (<["LC_ALL" := "C"]> (<["LANG" := "C"]> (environ w)))
            (installed_locales w)
            (if has_locale w "C" then fun _ => "C" else locale w)
            (sys_zone w) (timezone w) (tzname w)
            (calls w
             ++ (if WIN32 then [Call_putenv "LANG=C"; Call_putenv "LC_ALL=C"]
                 else [Call_setenv "LANG" "C" 1; Call_setenv "LC_ALL" "C" 1])
             ++ [Call_setlocale LC_ALL "C"])%list).
Proof.
  unfold liquidsoap_set_locale. destruct WIN32.
  - unfold bind at 1 2.
    rewrite (putenv_assignment "LANG" "C") by reflexivity.
    unfold bind.
    rewrite (putenv_assignment "LC_ALL" "C") by reflexivity.
    unfold setlocale, ret.
    change (has_locale _ "C") with (has_locale w "C").
    destruct (has_locale w "C");
      unfold log, set_environ, set_locale_state; cbn -[insert];
      rewrite <- !app_assoc; reflexivity.
  - unfold bind at 1 2.
    rewrite setenv_overwrite. unfold bind. rewrite setenv_overwrite.
    unfold setlocale, ret.
    change (has_locale _ "C") with (has_locale w "C").
    destruct (has_locale w "C");
      unfold log, set_environ, set_locale_state; cbn -[insert];
      rewrite <- !app_assoc; reflexivity.
Qed.

(** C5: every call binds both [LANG] and [LC_ALL] to ["C"] in the process
    environment and issues exactly one locale-setting call,
    [setlocale(LC_ALL, "C")], after them; on a platform that has the "C"
    locale, as ISO C requires, every locale category is "C" as soon as the
    stub returns. *)
Theorem set_locale_pins_environment_and_locale WIN32 w :
  let w' := snd (force_unambiguous_locale WIN32 w) in
  environ w' !! "LANG" = Some "C" /\
  environ w' !! "LC_ALL" = Some "C" /\
  calls w' =
    (calls w
     ++ (if WIN32 then [Call_putenv "LANG=C"; Call_putenv "LC_ALL=C"]
         else [Call_setenv "LANG" "C" 1; Call_setenv "LC_ALL" "C" 1])
     ++ [Call_setlocale LC_ALL "C"])%list /\
  (has_locale w "C" = true -> forall c, locale w' c = "C").
Proof.
  unfold force_unambiguous_locale. rewrite set_locale_run. cbn [snd environ calls locale].
  split; [|split; [|split]].
  - rewrite lookup_insert_ne by discriminate. apply lookup_insert_eq.
  - apply lookup_insert_eq.
  - reflexivity.
  - intros -> c. reflexivity.
Qed.

Lemma set_locale_pins_environment_and_locale_witness :
  has_locale utc_host "C" = true /\
  environ (snd (force_unambiguous_locale false utc_host)) !! "LANG" = Some "C" /\
  (forall c, locale (snd (force_unambiguous_locale false utc_host)) c = "C").
Proof.
  pose proof (set_locale_pins_environment_and_locale false utc_host) as (H1 & _ & _ & H).
  split; [reflexivity|]. split; [exact H1|]. exact (H eq_refl).
Defined.

(** C10: the stub is total and never raises: for every argument and every
    state of the process it returns [Val_unit].  This holds also when
    [setlocale] fails: the call then answers [NULL] and leaves the locale
    as it was, and the stub, which does not look at the answer, returns
    [Val_unit] all the same. *)
Theorem set_locale_never_fails WIN32 unit w :
  fst (liquidsoap_set_locale WIN32 unit w) = Returns Val_unit /\
  (forall w0, fst (setlocale LC_ALL "C" w0) =
              Returns (if has_locale w0 "C" then Some "C" else None)) /\
  (forall c, locale (snd (liquidsoap_set_locale WIN32 unit w)) c =
             if has_locale w "C" then "C" else locale w c) /\
  has_locale no_locale_host "C" = false /\
  liquidsoap_set_locale WIN32 unit no_locale_host =
    (Returns Val_unit, snd (liquidsoap_set_locale WIN32 unit no_locale_host)).
Proof.
  rewrite !set_locale_run. cbn [fst snd locale].
  split; [reflexivity|]. split; [|split; [|split; reflexivity]].
  - intros w0. unfold setlocale. destruct (has_locale w0 "C"); reflexivity.
  - intros c. destruct (has_locale w "C"); reflexivity.
Qed.

(** ** Conversion of calendar fields *)

(** C7: on a host configured as UTC, the fields of the epoch (year 70,
    month 0, day 1, 00:00:00, [StandardTime]) are handed to [mktime] with
    [tm_isdst] = 0 and convert to the float 0.0. *)
Theorem epoch_under_utc_is_zero w :
  utc_configured w ->
  fst (to_epoch_seconds epoch_spec w) = Returns (Vdouble (S754_zero false)) /\
  calls (snd (to_epoch_seconds epoch_spec w)) =
    (calls w ++ [Call_mktime (mk_tm 0 0 0 1 0 70 0 0 0)])%list.
Proof.
  intros Hutc. rewrite to_epoch_seconds_unfold by solve_well_formed. cbv zeta.
  unfold mktime_value, calendar_time.
  change (tm_isdst (tm_of_spec epoch_spec)) with 0. rewrite Hutc.
  split; reflexivity.
Qed.

Lemma epoch_under_utc_is_zero_witness :
  (fst (to_epoch_seconds epoch_spec utc_host) = Returns (Vdouble (S754_zero false)) /\
   calls (snd (to_epoch_seconds epoch_spec utc_host)) =
     [Call_mktime (mk_tm 0 0 0 1 0 70 0 0 0)]) /\
  (fst (to_epoch_seconds epoch_spec gnu_utc_host) = Returns (Vdouble (S754_zero false)) /\
   calls (snd (to_epoch_seconds epoch_spec gnu_utc_host)) =
     [Call_mktime (mk_tm 0 0 0 1 0 70 0 0 0)]).
Proof.
  split.
  - apply (epoch_under_utc_is_zero utc_host). intros s. cbn. f_equal. lia.
  - apply (epoch_under_utc_is_zero gnu_utc_host). intros s. reflexivity.
Defined.











(** ** The float result

    [SpecFloat] states its operations over the core library's integer
    functions; [stdlib_Z] restates them with the [Z] module's, which
    [lia] knows. *)

Ltac stdlib_Z :=
  change IntDef.Z.add with Z.add in *;
  change IntDef.Z.sub with Z.sub in *;
  change IntDef.Z.max with Z.max in *;
  change IntDef.Z.leb with Z.leb in *;
  change IntDef.Z.even with Z.even in *.

Lemma digits2_pos_size p : digits2_pos p = Pos.size p.
Proof. induction p; cbn; congruence. Qed.

Lemma digits2_pos_lower p : 2 ^ Z.pos (digits2_pos p) <= 2 * Z.pos p.
Proof.
  rewrite digits2_pos_size.
  pose proof (Pos.size_le p) as H.
  rewrite <- (Pos2Z.inj_pow 2 (Pos.size p)). change (2 * Z.pos p) with (Z.pos p~0).
  apply Pos2Z.pos_le_pos. exact H.
Qed.

Lemma digits2_pos_upper p : Z.pos p < 2 ^ Z.pos (digits2_pos p).
Proof.
  rewrite digits2_pos_size. pose proof (Pos.size_gt p) as H.
  rewrite <- (Pos2Z.inj_pow 2 (Pos.size p)). apply Pos2Z.pos_lt_pos. exact H.
Qed.

Lemma digits2_pos_le p k : 0 <= k -> Z.pos p < 2 ^ k -> Z.pos (digits2_pos p) <= k.
Proof.
  intros Hk Hp. pose proof (digits2_pos_lower p) as Hl.
  assert (H : 2 ^ Z.pos (digits2_pos p) < 2 ^ (k + 1)).
  { rewrite Z.pow_add_r by lia. lia. }
  apply Z.pow_lt_mono_r_iff in H; lia.
Qed.

Lemma iter_xO_value k m : Z.pos (Pos.iter xO m k) = Z.pos m * 2 ^ Z.pos k.
Proof.
  induction k as [|k IH] using Pos.peano_ind.
  - cbn. lia.
  - rewrite Pos.iter_succ, Pos2Z.inj_succ, Z.pow_succ_r by lia.
    rewrite Pos2Z.inj_xO, IH. lia.
Qed.

Lemma iter_xO_digits k m :
  Z.pos (digits2_pos (Pos.iter xO m k)) = Z.pos (digits2_pos m) + Z.pos k.
Proof.
  induction k as [|k IH] using Pos.peano_ind.
  - cbn. lia.
  - rewrite Pos.iter_succ. cbn [digits2_pos]. rewrite Pos2Z.inj_succ, IH. lia.
Qed.

Lemma fexp_binary64 e : -1021 <= e -> fexp 53 1024 e = e - 53.
Proof. intros H. unfold fexp, emin. stdlib_Z. lia. Qed.

Lemma binary_round_aux_canonical sx m e :
  Z.pos (digits2_pos m) = 53 -> -1074 <= e <= 971 ->
  binary_round_aux 53 1024 sx (Z.pos m) e loc_Exact = S754_finite sx m e.
Proof.
  intros Hd He.
  assert (F : fexp 53 1024 (Z.pos (digits2_pos m) + e) - e = 0).
  { rewrite fexp_binary64 by lia. lia. }
  unfold binary_round_aux, shr_fexp. cbn [Zdigits2 shr_record_of_loc].
  stdlib_Z.
  rewrite F. cbn [shr shr_m loc_of_shr_record round_nearest_even Zdigits2 shr_record_of_loc].
  rewrite F. cbn [shr shr_m].
  destruct (Z.leb_spec e (1024 - 53)); [reflexivity|lia].
Qed.

Lemma shr_1_bounds r b : 0 <= shr_m r <= b -> 0 <= shr_m (shr_1 r) <= b.
Proof.
  destruct r as [m rb sb]. cbn [shr_m]. intros H.
  destruct m as [|[p|p|]|p]; cbn [shr_1 shr_m]; lia.
Qed.

Lemma iter_pos_shr_1_bounds p r b :
  0 <= shr_m r <= b -> 0 <= shr_m (SpecFloat.iter_pos shr_1 p r) <= b.
Proof.
  revert r. induction p as [p IH|p IH|]; intros r H; cbn [SpecFloat.iter_pos].
  - apply IH, IH, shr_1_bounds, H.
  - apply IH, IH, H.
  - apply shr_1_bounds, H.
Qed.

Lemma shr_bounds r e n b :
  0 <= shr_m r <= b -> 0 <= shr_m (fst (shr r e n)) <= b /\
  snd (shr r e n) = e + Z.max n 0.
Proof.
  intros H. destruct n; cbn [shr fst snd].
  - split; [assumption|lia].
  - split; [now apply iter_pos_shr_1_bounds|lia].
  - split; [assumption|lia].
Qed.

Lemma Zdigits2_le m k : 0 <= k -> 0 <= m < 2 ^ k -> 0 <= Zdigits2 m <= k.
Proof.
  intros Hk Hm. destruct m as [|p|p]; cbn [Zdigits2]; try lia.
  split; [lia|]. apply digits2_pos_le; lia.
Qed.

Lemma round_nearest_even_bounds m l : 0 <= m -> m <= round_nearest_even m l <= m + 1.
Proof.
  intros H. destruct l as [|[| |]]; cbn [round_nearest_even]; try lia.
  destruct (Z.even m); lia.
Qed.

(** Rounding an integer mantissa of more than 53 and at most 64 bits. *)
Lemma binary_round_aux_wide sx m :
  53 < Z.pos (digits2_pos m) <= 64 ->
  exists n, integer_of_double (binary_round_aux 53 1024 sx (Z.pos m) 0 loc_Exact) = Some n.
Proof.
  intros Hd.
  pose proof (digits2_pos_upper m) as Hup.
  assert (H64 : 2 ^ Z.pos (digits2_pos m) <= 2 ^ 64) by (apply Z.pow_le_mono_r; lia).
  unfold binary_round_aux, shr_fexp. cbn [Zdigits2 shr_record_of_loc].
  rewrite fexp_binary64 by lia.
  set (n1 := Z.pos (digits2_pos m) + 0 - 53 - 0).
  pose proof (shr_bounds {| shr_m := Z.pos m; shr_r := false; shr_s := false |}
                0 n1 (2 ^ 64)) as [B1 E1]; [cbn [shr_m]; lia|].
  destruct (shr _ 0 n1) as [mrs' e']. cbn [fst snd] in B1, E1.
  pose proof (round_nearest_even_bounds (shr_m mrs') (loc_of_shr_record mrs')) as B2.
  set (m2 := round_nearest_even (shr_m mrs') (loc_of_shr_record mrs')) in *.
  assert (D2 : 0 <= Zdigits2 m2 <= 65).
  { apply Zdigits2_le; [lia|]. change (2 ^ 65) with (2 * 2 ^ 64). lia. }
  set (n2 := fexp 53 1024 (Zdigits2 m2 + e') - e').
  assert (N2 : n2 <= 12).
  { unfold n2. rewrite fexp_binary64 by lia. lia. }
  pose proof (shr_bounds (shr_record_of_loc m2 loc_Exact) e' n2 (2 ^ 64 + 1)) as [B3 E3];
    [cbn [shr_record_of_loc shr_m]; lia|].
  destruct (shr _ e' n2) as [mrs'' e'']. cbn [fst snd] in B3, E3.
  destruct (shr_m mrs'') as [|p|p]; [eexists; reflexivity| |lia].
  destruct (Z.leb_spec e'' (1024 - 53)); [|lia].
  cbn [integer_of_double]. destruct (Z.leb_spec 0 e''); [eexists; reflexivity|lia].
Qed.

Lemma binary_round_integral sx m :
  Z.pos (digits2_pos m) <= 64 ->
  exists n, integer_of_double (binary_round 53 1024 sx m 0) = Some n /\
            (Z.pos (digits2_pos m) <= 53 -> n = cond_Zopp sx (Z.pos m)).
Proof.
  intros Hd. unfold binary_round.
  rewrite fexp_binary64 by lia. unfold shl_align.
  destruct (Z.pos (digits2_pos m) + 0 - 53 - 0) as [|k|k] eqn:E.
  - rewrite binary_round_aux_canonical by lia.
    exists (cond_Zopp sx (Z.pos m)). split; [|reflexivity].
    unfold integer_of_double. change (0 <=? 0) with true. cbv iota.
    now rewrite Z.pow_0_r, Z.mul_1_r.
  - destruct (binary_round_aux_wide sx m) as [n Hn]; [lia|].
    exists n. split; [assumption|lia].
  - rewrite binary_round_aux_canonical
      by (rewrite ?iter_xO_digits; lia).
    exists (cond_Zopp sx (Z.pos m)). split; [|reflexivity].
    cbn [integer_of_double].
    destruct (Z.leb_spec 0 (Z.pos (digits2_pos m) + 0 - 53)); [lia|].
    replace (- (Z.pos (digits2_pos m) + 0 - 53)) with (Z.pos k) by lia.
    rewrite iter_xO_value, Z.mod_mul, Z.div_mul by lia. reflexivity.
Qed.

Lemma double_of_Z_integral z :
  CInt.in_time_t z ->
  exists n, integer_of_double (double_of_Z z) = Some n /\ (Z.abs z < 2 ^ 53 -> n = z).
Proof.
  unfold CInt.in_time_t, CInt.time_t_min, CInt.time_t_max. intros Hz.
  destruct z as [|p|p]; unfold double_of_Z, binary_normalize.
  - exists 0. split; reflexivity.
  - destruct (binary_round_integral false p) as (n & Hn & Hex).
    + apply digits2_pos_le; lia.
    + exists n. split; [assumption|]. intros Hs. rewrite Hex; [reflexivity|].
      apply digits2_pos_le; lia.
  - destruct (binary_round_integral true p) as (n & Hn & Hex).
    + apply digits2_pos_le; lia.
    + exists n. split; [assumption|]. intros Hs. rewrite Hex; [reflexivity|].
      apply digits2_pos_le; lia.
Qed.

(** A [time_t] beyond 53 bits still converts to an integer, though not
    always to itself: 2^53 + 1 becomes 2^53. *)
Lemma double_of_Z_rounds_beyond_53_bits :
  integer_of_double (double_of_Z (2 ^ 53 + 1)) = Some (2 ^ 53).
Proof. reflexivity. Qed.

Lemma mktime_value_in_time_t z t : CInt.in_time_t (mktime_value z t).
Proof.
  unfold mktime_value, calendar_time, CInt.in_time_t, CInt.in_time_tb.
  destruct (z_resolve z (tm_isdst t) (local_seconds t)) as [u|].
  - destruct (Z.leb_spec CInt.time_t_min u), (Z.leb_spec u CInt.time_t_max);
      cbn [andb]; try lia; unfold CInt.time_t_min, CInt.time_t_max; lia.
  - unfold CInt.time_t_min, CInt.time_t_max; lia.
Qed.

(** C9: whenever the stub returns, the value is a boxed float that is
    the conversion [(double) t] of the integer [t] that [mktime]
    answered, and that float denotes an integer: it has no fractional
    part.  Below 2^53 in absolute value the integer is [t] itself. *)
Theorem epoch_seconds_are_integral s w v :
  fst (to_epoch_seconds s w) = Returns v ->
  exists t d n,
    CInt.in_time_t t /\
    v = Vdouble d /\
    d = double_of_Z t /\
    integer_of_double d = Some n /\
    (Z.abs t < 2 ^ 53 -> n = t).
Proof.
  unfold to_epoch_seconds, liquidsoap_mktime, bind, mktime. cbv zeta.
  match goal with |- context [mktime_value ?z ?t] => set (u := mktime_value z t) end.
  pose proof (mktime_value_in_time_t (sys_zone w) _ : CInt.in_time_t u) as Hu.
  destruct (u =? -1); cbn; intros H; [discriminate|].
  injection H as <-.
  destruct (double_of_Z_integral u Hu) as (n & Hn & Hex).
  exists u, (double_of_Z u), n.
  split; [exact Hu|]. split; [reflexivity|]. split; [reflexivity|].
  split; [exact Hn|exact Hex].
Qed.

Lemma epoch_seconds_are_integral_witness :
  exists t d n,
    CInt.in_time_t t /\
    Vdouble (double_of_Z 1720951200) = Vdouble d /\
    d = double_of_Z t /\
    integer_of_double d = Some n /\
    (Z.abs t < 2 ^ 53 -> n = t).
Proof.
  apply (epoch_seconds_are_integral summer_noon paris_2024_host). reflexivity.
Defined.

(** * Further properties of the stubs *)

(** ** [liquidsoap_set_locale] *)

(** X1: [liquidsoap_set_locale] changes two environment variables and
    nothing else: every variable other than [LANG] and [LC_ALL] keeps its
    binding, or stays unbound, and the installed locales, the timezone
    setting and the timezone globals are as before. *)
Theorem set_locale_touches_nothing_else WIN32 unit w name :
  name <> "LANG" -> name <> "LC_ALL" ->
  let w' := snd (liquidsoap_set_locale WIN32 unit w) in
  environ w' !! name = environ w !! name /\
  installed_locales w' = installed_locales w /\
  sys_zone w' = sys_zone w /\
  timezone w' = timezone w /\
  tzname w' = tzname w.
Proof.
  intros Hlang Hall. rewrite set_locale_run. cbn [snd environ installed_locales sys_zone timezone tzname].
  split; [|repeat split].
  rewrite !lookup_insert_ne by congruence. reflexivity.
Qed.

Lemma set_locale_touches_nothing_else_witness :
  environ (snd (liquidsoap_set_locale false Val_unit utc_host)) !! "HOME" =
    environ utc_host !! "HOME" /\
  sys_zone (snd (liquidsoap_set_locale false Val_unit utc_host)) = sys_zone utc_host.
Proof.
  pose proof (set_locale_touches_nothing_else false Val_unit utc_host "HOME") as H.
  destruct H as (H1 & _ & H2 & _); [discriminate|discriminate|].
  split; [exact H1|exact H2].
Defined.

Lemma pinned_environment_twice (e : gmap string string) :
  <["LC_ALL" := "C"]> (<["LANG" := "C"]> (<["LC_ALL" := "C"]> (<["LANG" := "C"]> e))) =
  <["LC_ALL" := "C"]> (<["LANG" := "C"]> e).
Proof.
  apply map_eq. intros k.
  destruct (decide (k = "LC_ALL")) as [->|Hall].
  - now rewrite !lookup_insert_eq.
  - rewrite (lookup_insert_ne _ "LC_ALL" k) by congruence.
    rewrite (lookup_insert_ne (<["LANG":="C"]> e) "LC_ALL" k) by congruence.
    destruct (decide (k = "LANG")) as [->|Hlang].
    + now rewrite !lookup_insert_eq.
    + rewrite !lookup_insert_ne by congruence. reflexivity.
Qed.

(** X2: [liquidsoap_set_locale] is idempotent: a second call returns
    the same value and leaves the environment, the locale and the rest of
    the state as the first call left them. *)
Theorem set_locale_idempotent WIN32 unit w :
  let once := liquidsoap_set_locale WIN32 unit w in
  let twice := liquidsoap_set_locale WIN32 unit (snd once) in
  fst twice = fst once /\ same_state (snd twice) (snd once).
Proof.
  cbv zeta. rewrite !set_locale_run. cbn [fst snd].
  split; [reflexivity|]. unfold same_state.
  cbn [environ installed_locales locale sys_zone timezone tzname].
  split; [apply pinned_environment_twice|].
  split; [reflexivity|]. split; [|repeat split].
  intros c. unfold has_locale. cbn [installed_locales].
  destruct (existsb _ _); reflexivity.
Qed.

(** X3: the two compile-time branches agree: with [putenv] under
    [WIN32] and with [setenv] otherwise, the stub returns the same value
    and leaves the same environment and locale. *)
Theorem set_locale_same_on_windows_and_unix unit w :
  fst (liquidsoap_set_locale true unit w) = fst (liquidsoap_set_locale false unit w) /\
  same_state (snd (liquidsoap_set_locale true unit w))
             (snd (liquidsoap_set_locale false unit w)).
Proof.
  rewrite !set_locale_run. split; [reflexivity|]. repeat split.
Qed.

(** ** The timezone stubs *)

(** X4: the two timezone stubs can be repeated and interleaved: called
    twice or one after the other, in either order, each returns what it
    returns when called alone, and the state they leave is the same. *)
Theorem timezone_stubs_repeat_and_commute w :
  let offset := Val_long (z_west (sys_zone w)) in
  let names := Vblock 0 [Vstring (z_std_name (sys_zone w)); Vstring (z_dst_name (sys_zone w))] in
  fst (both liquidsoap_get_timezone liquidsoap_get_timezone w) = Returns (offset, offset) /\
  fst (both liquidsoap_get_timezone_by_name liquidsoap_get_timezone_by_name w) =
    Returns (names, names) /\
  fst (both liquidsoap_get_timezone liquidsoap_get_timezone_by_name w) =
    Returns (offset, names) /\
  fst (both liquidsoap_get_timezone_by_name liquidsoap_get_timezone w) =
    Returns (names, offset) /\
  same_state (snd (both liquidsoap_get_timezone liquidsoap_get_timezone_by_name w))
             (snd (liquidsoap_get_timezone w)).
Proof.
  cbv zeta. repeat split.
Qed.

(** X5: none of [liquidsoap_get_timezone],
    [liquidsoap_get_timezone_by_name] and [liquidsoap_mktime], on any
    argument, changes the environment, the installed locales, the locale
    in effect or the system's timezone setting. *)
Theorem time_stubs_leave_environment_and_locale v w :
  let untouched w' :=
    environ w' = environ w /\
    installed_locales w' = installed_locales w /\
    (forall c, locale w' c = locale w c) /\
    sys_zone w' = sys_zone w in
  untouched (snd (liquidsoap_get_timezone w)) /\
  untouched (snd (liquidsoap_get_timezone_by_name w)) /\
  untouched (snd (liquidsoap_mktime v w)).
Proof.
  cbv zeta. split; [repeat split|]. split; [repeat split|].
  unfold liquidsoap_mktime, bind, mktime. cbv zeta.
  destruct (_ =? -1); repeat split.
Qed.

(** X6: when the offset of the zone fits in 63 bits, as every real
    offset does, the OCaml integer [liquidsoap_get_timezone] returns is
    that offset exactly, and [Long_val] reads it back. *)
Theorem timezone_offset_is_exact_within_63_bits w :
  - 2 ^ 62 <= z_west (sys_zone w) < 2 ^ 62 ->
  fst (liquidsoap_get_timezone w) = Returns (Vlong (z_west (sys_zone w))) /\
  (forall v, fst (liquidsoap_get_timezone w) = Returns v -> Long_val v = z_west (sys_zone w)).
Proof.
  intros H.
  assert (E : fst (liquidsoap_get_timezone w) = Returns (Vlong (z_west (sys_zone w)))).
  { change (fst (liquidsoap_get_timezone w)) with (Returns (Val_long (z_west (sys_zone w)))).
    unfold Val_long. rewrite wrap_signed_small; [reflexivity|lia|].
    change (63 - 1) with 62. exact H. }
  split; [exact E|]. intros v Hv. rewrite E in Hv. injection Hv as <-. reflexivity.
Qed.

Lemma timezone_offset_is_exact_within_63_bits_witness :
  fst (liquidsoap_get_timezone paris_2024_host) = Returns (Vlong (-3600)) /\
  (forall v, fst (liquidsoap_get_timezone paris_2024_host) = Returns v -> Long_val v = -3600).
Proof.
  apply (timezone_offset_is_exact_within_63_bits paris_2024_host).
  vm_compute. split; congruence.
Defined.

(** Beyond that range [Val_long] drops the top bit of the [long]. *)
Example timezone_offset_wraps_at_62_bits :
  fst (liquidsoap_get_timezone (set_zone (fixed_zone "" "" (2 ^ 62)) utc_host)) =
  Returns (Vlong (- 2 ^ 62)).
Proof. reflexivity. Qed.

(** ** [liquidsoap_mktime] *)

Lemma well_formed_truncate_spec s : well_formed (truncate_spec s).
Proof. unfold well_formed, truncate_spec. cbn. repeat split; apply to_int_range. Qed.

(** X7: [liquidsoap_mktime] sees every calendar field through
    [Int_val]: an input converts exactly as the input whose fields are
    reduced to 32-bit C integers, state and log included, and that
    reduction changes nothing when the fields already are C integers. *)
Theorem mktime_reduces_fields_modulo_2_32 s w :
  well_formed (truncate_spec s) /\
  to_epoch_seconds s w = to_epoch_seconds (truncate_spec s) w /\
  (well_formed s -> truncate_spec s = s).
Proof.
  split; [apply well_formed_truncate_spec|]. split.
  - unfold to_epoch_seconds, liquidsoap_mktime, value_of_spec, truncate_spec.
    cbn [Field nth seconds minutes hours day_of_month month year dst].
    rewrite !Int_val_Val_int_any, !to_int_idempotent. reflexivity.
  - intros (Hs & Hmi & Hh & Hd & Hmo & Hy). unfold truncate_spec.
    rewrite !to_int_small by assumption. now destruct s.
Qed.

Example hour_beyond_32_bits :
  to_epoch_seconds (mk_spec 0 30 (2 ^ 32 + 25) 29 1 124 Unspecified) utc_host =
  to_epoch_seconds (mk_spec 0 30 25 29 1 124 Unspecified) utc_host.
Proof. reflexivity. Qed.






(** Rounding an integer of more than 53 bits gives a zero or a float with
    a positive exponent. *)
Lemma binary_round_aux_wide_shape sx m :
  53 < Z.pos (digits2_pos m) <= 64 ->
  binary_round_aux 53 1024 sx (Z.pos m) 0 loc_Exact = S754_zero sx \/
  exists m' e', binary_round_aux 53 1024 sx (Z.pos m) 0 loc_Exact = S754_finite sx m' e'
                /\ 0 < e'.
Proof.
  intros Hd.
  pose proof (digits2_pos_upper m) as Hup.
  assert (H64 : 2 ^ Z.pos (digits2_pos m) <= 2 ^ 64) by (apply Z.pow_le_mono_r; lia).
  unfold binary_round_aux, shr_fexp. cbn [Zdigits2 shr_record_of_loc].
  rewrite fexp_binary64 by lia.
  set (n1 := Z.pos (digits2_pos m) + 0 - 53 - 0).
  pose proof (shr_bounds {| shr_m := Z.pos m; shr_r := false; shr_s := false |}
                0 n1 (2 ^ 64)) as [B1 E1]; [cbn [shr_m]; lia|].
  destruct (shr _ 0 n1) as [mrs' e']. cbn [fst snd] in B1, E1.
  pose proof (round_nearest_even_bounds (shr_m mrs') (loc_of_shr_record mrs')) as B2.
  set (m2 := round_nearest_even (shr_m mrs') (loc_of_shr_record mrs')) in *.
  assert (D2 : 0 <= Zdigits2 m2 <= 65).
  { apply Zdigits2_le; [lia|]. change (2 ^ 65) with (2 * 2 ^ 64). lia. }
  set (n2 := fexp 53 1024 (Zdigits2 m2 + e') - e').
  assert (N2 : n2 <= 12).
  { unfold n2. rewrite fexp_binary64 by lia. lia. }
  pose proof (shr_bounds (shr_record_of_loc m2 loc_Exact) e' n2 (2 ^ 64 + 1)) as [B3 E3];
    [cbn [shr_record_of_loc shr_m]; lia|].
  destruct (shr _ e' n2) as [mrs'' e'']. cbn [fst snd] in B3, E3.
  destruct (shr_m mrs'') as [|p|p]; [now left| |lia].
  destruct (Z.leb_spec e'' (1024 - 53)); [|lia].
  right. exists p, e''. split; [reflexivity|lia].
Qed.

(** Among the values of [time_t], only -1 converts to the float -1.0. *)
Lemma double_of_Z_minus_one u :
  CInt.in_time_t u -> double_of_Z u = double_of_Z (-1) -> u = -1.
Proof.
  intros Hu E.
  destruct (double_of_Z_integral u Hu) as (n & Hn & Hex).
  rewrite E in Hn. injection Hn as <-.
  destruct (Z_lt_le_dec (Z.abs u) (2 ^ 53)) as [Hs|Hl]; [symmetry; now apply Hex|].
  exfalso. clear Hex.
  assert (R : double_of_Z (-1) = S754_finite true 4503599627370496 (-52)) by reflexivity.
  rewrite R in E. clear R.
  unfold CInt.in_time_t, CInt.time_t_min, CInt.time_t_max in Hu.
  destruct u as [|p|p]; [discriminate E| |].
  - unfold double_of_Z, binary_normalize, binary_round in E.
    assert (D : 53 < Z.pos (digits2_pos p) <= 64).
    { split; [|apply digits2_pos_le; lia].
      pose proof (digits2_pos_upper p) as Hup.
      destruct (Z_lt_le_dec 53 (Z.pos (digits2_pos p))) as [|Hle]; [assumption|].
      assert (2 ^ Z.pos (digits2_pos p) <= 2 ^ 53) by (apply Z.pow_le_mono_r; lia). lia. }
    rewrite fexp_binary64 in E by lia. unfold shl_align in E.
    destruct (Z.pos (digits2_pos p) + 0 - 53 - 0) eqn:Ed; try lia.
    destruct (binary_round_aux_wide_shape false p D) as [Z0|(m' & e' & F & He)];
      rewrite ?Z0, ?F in E; discriminate E.
  - unfold double_of_Z, binary_normalize, binary_round in E.
    assert (D : 53 < Z.pos (digits2_pos p) <= 64).
    { split; [|apply digits2_pos_le; lia].
      pose proof (digits2_pos_upper p) as Hup.
      destruct (Z_lt_le_dec 53 (Z.pos (digits2_pos p))) as [|Hle]; [assumption|].
      assert (2 ^ Z.pos (digits2_pos p) <= 2 ^ 53) by (apply Z.pow_le_mono_r; lia). lia. }
    rewrite fexp_binary64 in E by lia. unfold shl_align in E.
    destruct (Z.pos (digits2_pos p) + 0 - 53 - 0) eqn:Ed; try lia.
    destruct (binary_round_aux_wide_shape true p D) as [Z0|(m' & e' & F & He)];
      rewrite ?Z0, ?F in E; [discriminate E|].
    injection E as _ E'. lia.
Qed.

(** X8: whatever its argument and the state, [liquidsoap_mktime] never
    returns the float -1.0: the one [time_t] that converts to it is -1,
    which the stub turns into an exception. *)
Theorem mktime_never_returns_minus_one v w :
  fst (liquidsoap_mktime v w) <> Returns (Vdouble (double_of_Z (-1))).
Proof.
  unfold liquidsoap_mktime, bind, mktime. cbv zeta.
  match goal with |- context [mktime_value ?z ?t] => set (u := mktime_value z t) end.
  pose proof (mktime_value_in_time_t (sys_zone w) _ : CInt.in_time_t u) as Hu.
  destruct (Z.eqb_spec u (-1)) as [E|E]; cbn; [discriminate|].
  intros H. injection H as H. apply E. now apply double_of_Z_minus_one.
Qed.



(** ** [liquidsoap_get_pagesize] *)

(** X12: for a page size that is a positive C [int],
    [liquidsoap_get_pagesize] returns that very number as an OCaml
    integer, [Long_val] reads it back, and the [WIN32] branch
    ([GetSystemInfo]) and the other one ([getpagesize]) agree. *)
Theorem pagesize_reaches_ocaml_unchanged WIN32 m :
  0 < page_bytes m <= CInt.int_max ->
  liquidsoap_get_pagesize WIN32 m = Vlong (page_bytes m) /\
  Long_val (liquidsoap_get_pagesize WIN32 m) = page_bytes m /\
  liquidsoap_get_pagesize true m = liquidsoap_get_pagesize false m.
Proof.
  unfold CInt.int_max. intros H.
  assert (U : liquidsoap_get_pagesize false m = Vlong (page_bytes m)).
  { unfold liquidsoap_get_pagesize, getpagesize, Val_int, Val_long.
    rewrite to_int_small by (unfold CInt.in_int, CInt.int_min, CInt.int_max; lia).
    rewrite wrap_signed_small; [reflexivity|lia|]. change (63 - 1) with 62. lia. }
  assert (W : liquidsoap_get_pagesize true m = Vlong (page_bytes m)).
  { unfold liquidsoap_get_pagesize, GetSystemInfo, Val_int, Val_long. cbn [dwPageSize].
    rewrite Z.mod_small by lia.
    rewrite wrap_signed_small; [reflexivity|lia|]. change (63 - 1) with 62. lia. }
  destruct WIN32; rewrite ?U, ?W; repeat split; reflexivity.
Qed.

Lemma pagesize_reaches_ocaml_unchanged_witness :
  liquidsoap_get_pagesize false machine_4k = Vlong 4096 /\
  Long_val (liquidsoap_get_pagesize false machine_4k) = 4096 /\
  liquidsoap_get_pagesize true machine_4k = liquidsoap_get_pagesize false machine_4k.
Proof.
  apply (pagesize_reaches_ocaml_unchanged false machine_4k). vm_compute. split; congruence.
Defined.
